(** * Monthly payroll: gross-for-take-home solver, row processing, aggregation

    A shallow embedding of
    [payroll_sheet/school_payroll/doctype/monthly_payroll/monthly_payroll.py].

    Python's [float] is kept abstract behind the interface [PyFloat], which
    lists exactly the operations the module uses.  Two instances are given:

    - [Q_float]: exact rational arithmetic, the reading under which the
      deduction formulas are the piecewise-linear functions they are written
      as; the theorems that rest on the laws of arithmetic are stated on
      this instance, and say nothing of the rounding of doubles;
    - [B64_float]: IEEE binary64 on Rocq's primitive floats, which evaluates
      the code bit for bit as CPython does; it is used to run the code at
      concrete inputs.

    Theorems about the shape of the results (rows, summary records) hold
    for every instance. *)

From Stdlib Require Import ZArith QArith Qround Qabs Lqa Lia List String Bool.
From Stdlib Require Import Floats.
From Stdlib Require Import Permutation.
Import ListNotations.

Set Implicit Arguments.

(** ** Outcomes of a call *)

Inductive exn : Type :=
| OverflowError   (* math.ceil(inf), float(n) for an n beyond the doubles *)
| ValueError.     (* math.ceil(nan) *)

Inductive outcome (A : Type) : Type :=
| Returned (a : A)
| Raised (e : exn)
| OutOfFuel.

Arguments Returned {A} a.
Arguments Raised {A} e.
Arguments OutOfFuel {A}.

Definition bind {A B : Type} (m : outcome A) (k : A -> outcome B) : outcome B :=
  match m with
  | Returned a => k a
  | Raised e => Raised e
  | OutOfFuel => OutOfFuel
  end.

Notation "'let*' x ':=' m 'in' k" := (bind m (fun x => k))
  (at level 10, x name, m at level 100, k at level 200).

(** ** The float interface *)

Class PyFloat (F : Type) : Type := {
  const : Q -> F;                 (* a numeric literal of the source *)
  of_int : Z -> F;                (* the float nearest to a Python int *)
  int_fits : Z -> bool;           (* whether float(n) does not overflow *)
  fadd : F -> F -> F;
  fsub : F -> F -> F;
  fmul : F -> F -> F;
  fdiv : F -> F -> F;
  fle : F -> F -> bool;           (* a <= b *)
  flt : F -> F -> bool;           (* a < b *)
  fabs : F -> F;                  (* abs(a) *)
  truthy : F -> bool;             (* bool(a), i.e. a != 0 *)
  ceil : F -> outcome Z;          (* math.ceil(a), a Python int *)
  round0 : F -> F                 (* round(a, 0) *)
}.

Declare Scope py_scope.
Delimit Scope py_scope with py.
Notation "a + b" := (fadd a b) : py_scope.
Notation "a - b" := (fsub a b) : py_scope.
Notation "a * b" := (fmul a b) : py_scope.
Notation "a / b" := (fdiv a b) : py_scope.
Notation "a <=? b" := (fle a b) : py_scope.
Notation "a <? b" := (flt a b) : py_scope.
Notation "a >=? b" := (fle b a) (at level 70) : py_scope.

(** *** Exact rationals *)

(** Round half to even, the rule of [round(x, 0)]. *)
Definition Qround_half_even (x : Q) : Z :=
  let f := Qfloor x in
  match Qcompare (x - inject_Z f) (1 # 2) with
  | Lt => f
  | Gt => (f + 1)%Z
  | Eq => if Z.even f then f else (f + 1)%Z
  end.

Definition Qltb (a b : Q) : bool := negb (Qle_bool b a).

#[export] Instance Q_float : PyFloat Q := {
  const q := q;
  of_int := inject_Z;
  int_fits _ := true;
  fadd := Qplus;
  fsub := Qminus;
  fmul := Qmult;
  fdiv := Qdiv;
  fle := Qle_bool;
  flt := Qltb;
  fabs := Qabs;
  truthy a := negb (Qeq_bool a 0);
  ceil a := Returned (Qceiling a);
  round0 a := inject_Z (Qround_half_even a)
}.

(** *** IEEE binary64 *)

Module B64.

(** The exact value of a finite double is [(-1)^s * m * 2^e]. *)

Definition of_Z (n : Z) : float :=
  SF2Prim (binary_normalize prec emax n 0 false).

Definition int_fits (n : Z) : bool := negb (PrimFloat.is_infinity (of_Z n)).

(** A literal [p/q] with [p] and [q] below 2^53 is the double nearest to
    the quotient, which is what a correctly rounded division returns. *)
Definition const (q : Q) : float :=
  PrimFloat.div (of_Z (Qnum q)) (of_Z (Zpos (Qden q))).

Definition ceil (x : float) : outcome Z :=
  match Prim2SF x with
  | S754_zero _ => Returned 0%Z
  | S754_infinity _ => Raised OverflowError
  | S754_nan => Raised ValueError
  | S754_finite s m e =>
      let n := if s then Zneg m else Zpos m in
      match e with
      | Zneg k => Returned (- ((- n) / Z.pow_pos 2 k))%Z
      | _ => Returned (n * 2 ^ e)%Z
      end
  end.

Definition round0 (x : float) : float :=
  match Prim2SF x with
  | S754_finite s m (Zneg k) =>
      let d := Z.pow_pos 2 k in
      let f := (Zpos m / d)%Z in
      let n := match (2 * (Zpos m mod d) ?= d)%Z with
               | Lt => f
               | Gt => (f + 1)%Z
               | Eq => if Z.even f then f else (f + 1)%Z
               end in
      SF2Prim (binary_normalize prec emax (if s then - n else n)%Z 0 s)
  | _ => x
  end.

Definition truthy (x : float) : bool := negb (PrimFloat.eqb x PrimFloat.zero).

End B64.

#[export] Instance B64_float : PyFloat float := {
  const := B64.const;
  of_int := B64.of_Z;
  int_fits := B64.int_fits;
  fadd := PrimFloat.add;
  fsub := PrimFloat.sub;
  fmul := PrimFloat.mul;
  fdiv := PrimFloat.div;
  fle := PrimFloat.leb;
  flt := PrimFloat.ltb;
  fabs := PrimFloat.abs;
  truthy := B64.truthy;
  ceil := B64.ceil;
  round0 := B64.round0
}.

(** ** The values dictionary *)

(** The nine keys of the dictionary built by [_calc_all].  [gross_pay] is a
    float there and a Python int in what the solver returns, hence the
    second type parameter. *)
Record Vals (F G : Type) : Type := mkVals {
  paye : F;
  rssb_employer : F;
  rssb_employee : F;
  maternity_employer : F;
  maternity_employee : F;
  net_salary : F;
  cbhi : F;
  take_home_2 : F;
  gross_pay : G
}.

Section Engine.

Context {F : Type} `{PyFloat F}.
Local Open Scope py_scope.

(** [float(n)] on a Python int. *)
Definition float_of_int (n : Z) : outcome F :=
  if int_fits n then Returned (of_int n) else Raised OverflowError.

(** [float(x or 0)] on a float argument: a zero of either sign becomes
    [0.0], every other value is kept. *)
Definition float_or_0 (x : F) : F :=
  if truthy x then x else const 0.

(** *** PAYE (Rwanda, monthly brackets) *)
Definition _paye_rwanda (gross : F) : F :=
  let g := float_or_0 gross in
  if g <=? const 60000 then const 0
  else if g <=? const 100000 then const 0.10 * (g - const 60000)
  else if g <=? const 200000 then const 4000 + const 0.20 * (g - const 100000)
  else const 24000 + const 0.30 * (g - const 200000).

(** *** All amounts for a gross *)
Definition _calc_all (gross : F) (apply_tax : bool) : Vals F F :=
  let g := float_or_0 gross in
  let paye := if apply_tax then _paye_rwanda g else const 0 in
  let rssb_empr := const 0.08 * g in
  let rssb_empl := const 0.06 * g in
  let mat_empr := const 0.006 * g in
  let mat_empl := const 0.003 * g in
  let net_salary := g - (paye + rssb_empr + rssb_empl + mat_empr + mat_empl) in
  let cbhi := const 0.005 * net_salary in
  let take_home_2 := net_salary - cbhi in
  mkVals paye rssb_empr rssb_empl mat_empr mat_empl
         net_salary cbhi take_home_2 g.

(** *** Gross for a target take-home *)

(** [max(a, b)]: the first argument unless the second is greater. *)
Definition pymax (a b : F) : F := if a <? b then b else a.

Definition th2 (apply_tax : bool) (gross : F) : F :=
  take_home_2 (_calc_all gross apply_tax).

(** [for _ in range(n): if th2(hi) >= T: break; hi *= 2.0] *)
Fixpoint widen (n : nat) (T : F) (apply_tax : bool) (hi : F) : F :=
  match n with
  | O => hi
  | S n' =>
      if th2 apply_tax hi >=? T then hi
      else widen n' T apply_tax (hi * const 2)
  end.

(** The bisection loop; only [hi] is read after it. *)
Fixpoint bisect (n : nat) (T : F) (apply_tax : bool) (tolerance : F)
         (lo hi : F) : F :=
  match n with
  | O => hi
  | S n' =>
      let mid := (lo + hi) / const 2 in
      let t := th2 apply_tax mid in
      if fabs (t - T) <=? tolerance then mid
      else if t <? T then bisect n' T apply_tax tolerance mid hi
      else bisect n' T apply_tax tolerance lo mid
  end.

(** How many times the body [hi *= 2.0] of the first loop runs. *)
Fixpoint widen_iters (n : nat) (T : F) (apply_tax : bool) (hi : F) : nat :=
  match n with
  | O => O
  | S n' =>
      if th2 apply_tax hi >=? T then O
      else S (widen_iters n' T apply_tax (hi * const 2))
  end.


(** [_calc_all(g, apply_tax)] on a Python int [g]. *)
Definition calc_all_int (g : Z) (apply_tax : bool) : outcome (Vals F F) :=
  let* x := float_of_int g in
  Returned (_calc_all x apply_tax).

(** [while vals["take_home_2"] < T: g += 1; vals = _calc_all(g)], one unit
    of fuel per evaluation of the loop test. *)
Fixpoint bump (fuel : nat) (T : F) (apply_tax : bool) (g : Z)
  : outcome (Z * Vals F F) :=
  match fuel with
  | O => OutOfFuel
  | S fuel' =>
      let* vals := calc_all_int g apply_tax in
      if take_home_2 vals <? T then bump fuel' T apply_tax (g + 1)
      else Returned (g, vals)
  end.

Definition round_vals {G : Type} (v : Vals F G) (g : Z) : Vals F Z :=
  mkVals (round0 (paye v)) (round0 (rssb_employer v))
         (round0 (rssb_employee v)) (round0 (maternity_employer v))
         (round0 (maternity_employee v)) (round0 (net_salary v))
         (round0 (cbhi v)) (round0 (take_home_2 v)) g.

Definition rwanda_gross_for_take_home (fuel : nat) (take_home : F)
           (apply_tax : bool) (tolerance : F) (max_iter : Z)
  : outcome (Vals F Z) :=
  let T := float_or_0 take_home in
  if T <=? const 0 then
    Returned (round_vals (_calc_all (const 0) apply_tax) 0)
  else
    let lo := const 0 in
    let hi := pymax (T / const 0.55) (const 200000) in
    let hi := widen 30 T apply_tax hi in
    let hi := bisect (Z.to_nat max_iter) T apply_tax tolerance lo hi in
    let* g := ceil hi in
    let* gv := bump fuel T apply_tax g in
    Returned (round_vals (snd gv) (fst gv)).

(** The defaults of the signature. *)
Definition default_tolerance : F := const 1.
Definition default_max_iter : Z := 60.

End Engine.

(** ** Document rows *)

(** What a field of a child row may hold: nothing, a Python int or a float. *)
Inductive pyval (F : Type) : Type :=
| PNone
| PInt (n : Z)
| PFloat (x : F).

Arguments PNone {F}.
Arguments PInt {F} n.
Arguments PFloat {F} x.

Module PayrollRow.
Record t (F : Type) : Type := mk {
  employee : option string;
  employee_type : option string;
  take_home : pyval F;
  apply_tax : bool;
  gross_pay : pyval F;
  paye : pyval F;
  rssb_employer : pyval F;
  rssb_employee : pyval F;
  maternity_employer : pyval F;
  maternity_employee : pyval F;
  net_salary : pyval F;
  cbhi : pyval F;
  take_home_2 : pyval F
}.
End PayrollRow.

Module Summary.
Record t (F : Type) : Type := mk {
  employee_type : string;
  employee_count : Z;
  advance_pay : pyval F;
  net_salary : pyval F;
  net_minus_advance : pyval F;
  cost_to_company : pyval F
}.
End Summary.

Module Totals.
Record t (F : Type) : Type := mk {
  total_cost : pyval F;
  advance_pay : pyval F;
  net_salary : pyval F;
  net_minus_advance : pyval F;
  total_paye : pyval F;
  total_rssb : pyval F;
  total_maternity : pyval F;
  total_cbhi : pyval F;
  total_taxes : pyval F
}.
End Totals.

Section Document.

Context {F : Type} `{PyFloat F}.
Local Open Scope py_scope.

(** [v or 0]: [None] and the zeros are falsy. *)
Definition or_0 (v : pyval F) : pyval F :=
  match v with
  | PNone => PInt 0
  | PInt n => PInt n
  | PFloat x => if truthy x then PFloat x else PInt 0
  end.

(** [float(v or 0)]. *)
Definition float_of (v : pyval F) : outcome F :=
  match or_0 v with
  | PFloat x => Returned x
  | PInt n => float_of_int n
  | PNone => Returned (const 0)
  end.

(** Python's [+] and [-] on numbers: int with int stays an int, a float on
    either side makes a float.  Ints met here are row amounts and head
    counts, taken to lie in the range of the doubles. *)
Definition as_float (v : pyval F) : F :=
  match v with
  | PNone => const 0
  | PInt n => of_int n
  | PFloat x => x
  end.

Definition padd (a b : pyval F) : pyval F :=
  match a, b with
  | PInt m, PInt n => PInt (m + n)
  | _, _ => PFloat (as_float a + as_float b)
  end.

Definition psub (a b : pyval F) : pyval F :=
  match a, b with
  | PInt m, PInt n => PInt (m - n)
  | _, _ => PFloat (as_float a - as_float b)
  end.

(** *** One row *)

Section CalculateRow.

(** The solver as [calculate_row] calls it:
    [rwanda_gross_for_take_home(take_home, apply_tax, tolerance, max_iter)]. *)
Variable solver : F -> bool -> F -> Z -> outcome (Vals F Z).

Definition calculate_row_with (row : PayrollRow.t F) : outcome (PayrollRow.t F) :=
  let* target_th := float_of (PayrollRow.take_home row) in
  (* CASE 1: no take home entered *)
  if target_th <=? const 0 then
    Returned (PayrollRow.mk (PayrollRow.employee row) (PayrollRow.employee_type row)
                     (PayrollRow.take_home row) (PayrollRow.apply_tax row)
                     (PInt 0) (PInt 0) (PInt 0) (PInt 0) (PInt 0)
                     (PInt 0) (PInt 0) (PInt 0) (PInt 0))
  (* CASE 2: apply tax off *)
  else if negb (PayrollRow.apply_tax row) then
    Returned (PayrollRow.mk (PayrollRow.employee row) (PayrollRow.employee_type row)
                     (PayrollRow.take_home row) (PayrollRow.apply_tax row)
                     (PFloat target_th) (PInt 0) (PInt 0) (PInt 0) (PInt 0)
                     (PInt 0) (PFloat target_th) (PInt 0) (PFloat target_th))
  (* CASE 3: apply tax on *)
  else
    let* vals := solver target_th true (const 1) 60%Z in
    Returned (PayrollRow.mk (PayrollRow.employee row) (PayrollRow.employee_type row)
                     (PayrollRow.take_home row) (PayrollRow.apply_tax row)
                     (PInt (gross_pay vals))
                     (PFloat (paye vals))
                     (PFloat (rssb_employer vals))
                     (PFloat (rssb_employee vals))
                     (PFloat (maternity_employer vals))
                     (PFloat (maternity_employee vals))
                     (PFloat (net_salary vals))
                     (PFloat (cbhi vals))
                     (PFloat (take_home_2 vals))).

End CalculateRow.

Definition calculate_row (fuel : nat) (row : PayrollRow.t F) : outcome (PayrollRow.t F) :=
  calculate_row_with (rwanda_gross_for_take_home fuel) row.

(** *** Summary by employee type *)

Definition types : list string :=
  ["Academic"; "Administrative"; "Support"]%string.

Definition empty_summary (t : string) : Summary.t F :=
  Summary.mk t 0 (PInt 0) (PInt 0) (PInt 0) (PInt 0).

(** The [summary] dict, in insertion order. *)
Definition init_summary : list (string * Summary.t F) :=
  map (fun t => (t, empty_summary t)) types.

Definition add_row (row : PayrollRow.t F) (d : Summary.t F) : Summary.t F :=
  Summary.mk (Summary.employee_type d)
             (Summary.employee_count d + 1)
             (padd (Summary.advance_pay d) (or_0 (PayrollRow.take_home row)))
             (padd (Summary.net_salary d) (or_0 (PayrollRow.net_salary row)))
             (Summary.net_minus_advance d)
             (padd (Summary.cost_to_company d)
                   (padd (padd (or_0 (PayrollRow.gross_pay row))
                               (or_0 (PayrollRow.rssb_employer row)))
                         (or_0 (PayrollRow.maternity_employer row)))).

(** [if t in summary: summary[t][...] += ...] *)
Fixpoint update (t : string) (f : Summary.t F -> Summary.t F)
         (summary : list (string * Summary.t F))
  : list (string * Summary.t F) :=
  match summary with
  | [] => []
  | (k, d) :: rest =>
      if String.eqb k t then (k, f d) :: rest
      else (k, d) :: update t f rest
  end.

Definition aggregate_row (summary : list (string * Summary.t F))
           (row : PayrollRow.t F) : list (string * Summary.t F) :=
  match PayrollRow.employee_type row with
  | Some t => update t (add_row row) summary
  | None => summary
  end.

Definition set_net_minus_advance (d : Summary.t F) : Summary.t F :=
  Summary.mk (Summary.employee_type d) (Summary.employee_count d)
             (Summary.advance_pay d) (Summary.net_salary d)
             (psub (Summary.net_salary d) (Summary.advance_pay d))
             (Summary.cost_to_company d).

(** [for key in total: ... total[key] += data[key]]: every key but
    [employee_type], whose value is a string. *)
Definition add_to_total (total data : Summary.t F) : Summary.t F :=
  Summary.mk (Summary.employee_type total)
             (Summary.employee_count total + Summary.employee_count data)
             (padd (Summary.advance_pay total) (Summary.advance_pay data))
             (padd (Summary.net_salary total) (Summary.net_salary data))
             (padd (Summary.net_minus_advance total)
                   (Summary.net_minus_advance data))
             (padd (Summary.cost_to_company total)
                   (Summary.cost_to_company data)).

(** The rows appended to [summary_by_type]. *)
Definition calculate_summary (payroll_detail : list (PayrollRow.t F))
  : list (Summary.t F) :=
  let summary := fold_left aggregate_row payroll_detail init_summary in
  let datas := map (fun kd => set_net_minus_advance (snd kd)) summary in
  let total := fold_left add_to_total datas (empty_summary "Total") in
  datas ++ [set_net_minus_advance total].

(** *** Totals of the month *)

(** The running totals; [net_minus_advance] and [total_taxes] are filled
    in after the loop. *)
Definition totals_step (acc : Totals.t F) (row : PayrollRow.t F) : Totals.t F :=
  Totals.mk
    (padd (Totals.total_cost acc) (or_0 (PayrollRow.gross_pay row)))
    (padd (Totals.advance_pay acc) (or_0 (PayrollRow.take_home row)))
    (padd (Totals.net_salary acc) (or_0 (PayrollRow.net_salary row)))
    (Totals.net_minus_advance acc)
    (padd (Totals.total_paye acc) (or_0 (PayrollRow.paye row)))
    (padd (Totals.total_rssb acc)
          (padd (or_0 (PayrollRow.rssb_employee row)) (or_0 (PayrollRow.rssb_employer row))))
    (padd (Totals.total_maternity acc)
          (padd (or_0 (PayrollRow.maternity_employee row))
                (or_0 (PayrollRow.maternity_employer row))))
    (padd (Totals.total_cbhi acc) (or_0 (PayrollRow.cbhi row)))
    (Totals.total_taxes acc).

Definition totals_init : Totals.t F :=
  Totals.mk (PInt 0) (PInt 0) (PInt 0) (PInt 0) (PInt 0)
            (PInt 0) (PInt 0) (PInt 0) (PInt 0).

Definition totals_finish (acc : Totals.t F) : Totals.t F :=
  Totals.mk
    (Totals.total_cost acc) (Totals.advance_pay acc) (Totals.net_salary acc)
    (psub (Totals.net_salary acc) (Totals.advance_pay acc))
    (Totals.total_paye acc) (Totals.total_rssb acc)
    (Totals.total_maternity acc) (Totals.total_cbhi acc)
    (padd (padd (padd (Totals.total_paye acc) (Totals.total_rssb acc))
                (Totals.total_maternity acc))
          (Totals.total_cbhi acc)).

Definition calculate_totals (payroll_detail : list (PayrollRow.t F)) : Totals.t F :=
  totals_finish (fold_left totals_step payroll_detail totals_init).

(** *** The summary, category by category *)

(** Whether a row carries the employee type [t]. *)
Definition in_category (t : string) (row : PayrollRow.t F) : bool :=
  match PayrollRow.employee_type row with
  | Some t' => String.eqb t t'
  | None => false
  end.

(** What the aggregation loop does to the entry of [t] for one row. *)
Definition cat_step (t : string) (d : Summary.t F) (row : PayrollRow.t F)
  : Summary.t F :=
  if in_category t row then add_row row d else d.

(** The entry of [t] after the loop. *)
Definition category_data (t : string) (rows : list (PayrollRow.t F)) : Summary.t F :=
  fold_left (cat_step t) rows (empty_summary t).

End Document.

(** ** The document and its validation *)

(** What [frappe.throw] is called with. *)
Inductive validation_error : Type :=
| PayrollExists (company month year : string)
| EmployeeTwice (employee : string).

Inductive checked : Type :=
| Passed
| Thrown (e : validation_error).

(** Truth value of a field that holds a string or nothing. *)
Definition str_truthy (s : option string) : bool :=
  match s with
  | None => false
  | Some s => negb (String.eqb s "")
  end.

Module Doc.
Record t (F : Type) : Type := mk {
  name : option string;
  company : option string;
  month : option string;
  year : option string;
  payroll_detail : list (PayrollRow.t F);
  summary_by_type : list (Summary.t F);
  monthly_payroll_totals : list (Totals.t F)
}.
End Doc.

Section Validation.

Context {F : Type} `{PyFloat F}.

(** [seen] is kept as the list of the names added so far. *)
Fixpoint duplicates_from (seen : list string) (rows : list (PayrollRow.t F))
  : checked :=
  match rows with
  | [] => Passed
  | row :: rest =>
      match PayrollRow.employee row with
      | Some e =>
          if str_truthy (Some e) then
            if existsb (String.eqb e) seen then Thrown (EmployeeTwice e)
            else duplicates_from (e :: seen) rest
          else duplicates_from seen rest
      | None => duplicates_from seen rest
      end
  end.

Definition validate_duplicates (payroll_detail : list (PayrollRow.t F)) : checked :=
  duplicates_from [] payroll_detail.

(** The names [validate_duplicates] looks at: those of the rows whose
    [employee] is set. *)
Fixpoint employees (rows : list (PayrollRow.t F)) : list string :=
  match rows with
  | [] => []
  | row :: rest =>
      match PayrollRow.employee row with
      | Some e => if str_truthy (Some e) then e :: employees rest
                  else employees rest
      | None => employees rest
      end
  end.

(** [for row in rows: self.calculate_row(row)], the first exception ending
    the loop. *)
Fixpoint calculate_rows (fuel : nat) (rows : list (PayrollRow.t F))
  : outcome (list (PayrollRow.t F)) :=
  match rows with
  | [] => Returned []
  | row :: rest =>
      let* row' := calculate_row fuel row in
      let* rest' := calculate_rows fuel rest in
      Returned (row' :: rest')
  end.

Section Validate.

(** [frappe.db.exists("Monthly Payroll", {company, month, year,
    name != self.name})]: whether another payroll of the same company,
    month and year is stored. *)
Variable db_exists : string -> string -> string -> option string -> bool.

Definition check_unique_company_month_year (doc : Doc.t F) : checked :=
  match Doc.company doc, Doc.month doc, Doc.year doc with
  | Some c, Some m, Some y =>
      if negb (str_truthy (Some c)) || negb (str_truthy (Some m))
         || negb (str_truthy (Some y))
      then Passed
      else if db_exists c m y (Doc.name doc)
           then Thrown (PayrollExists c m y)
           else Passed
  | _, _, _ => Passed
  end.

(** [validate]: the outcome of the arithmetic around what the hook does,
    which is to throw or to leave the document with its rows calculated
    and its two tables rebuilt. *)
Definition validate (fuel : nat) (doc : Doc.t F)
  : outcome (validation_error + Doc.t F) :=
  match check_unique_company_month_year doc with
  | Thrown e => Returned (inl e)
  | Passed =>
      let* rows := calculate_rows fuel (Doc.payroll_detail doc) in
      match validate_duplicates rows with
      | Thrown e => Returned (inl e)
      | Passed =>
          Returned (inr (Doc.mk (Doc.name doc) (Doc.company doc)
                                (Doc.month doc) (Doc.year doc) rows
                                (calculate_summary rows)
                                [calculate_totals rows]))
      end
  end.

End Validate.

End Validation.

(** ** Reading the aggregates as numbers *)

(** The rows of one employee type. *)
Definition category_rows {F : Type} `{PyFloat F} (t : string)
           (rows : list (PayrollRow.t F)) : list (PayrollRow.t F) :=
  filter (in_category t) rows.




(** ** The bracket table, as the specification prints it *)

(** Tax of a monthly gross: nothing up to 60000, then 10%, 20% and 30% on the
    parts above 60000, 100000 and 200000. *)
Definition bracket_tax (g : Q) : Q :=
  if Qle_bool g 60000 then 0
  else if Qle_bool g 100000 then 0.10 * (g - 60000)
  else if Qle_bool g 200000 then 4000 + 0.20 * (g - 100000)
  else 24000 + 0.30 * (g - 200000).

(** The all-zero result of the solver. *)
Definition zero_vals {F : Type} `{PyFloat F} : Vals F Z :=
  mkVals (const 0) (const 0) (const 0) (const 0) (const 0)
         (const 0) (const 0) (const 0) 0%Z.

(** ** Sample rows *)

(** Scenario 5 of the specification: a tax-exempt row with target 80000. *)
Definition exempt_row : PayrollRow.t Q :=
  PayrollRow.mk (Some "E-1"%string) (Some "Support"%string) (PFloat 80000) false
         PNone PNone PNone PNone PNone PNone PNone PNone PNone.

(** Processed rows: an Academic one solved for 100000, a Support one exempt
    at 80000, and one of a type outside the three categories. *)
Definition academic_row : PayrollRow.t Q :=
  PayrollRow.mk (Some "E-2"%string) (Some "Academic"%string) (PFloat 100000) true
         (PInt 129805) (PFloat 9961) (PFloat 10384) (PFloat 7788)
         (PFloat 779) (PFloat 389) (PFloat 100503) (PFloat 503)
         (PFloat 100001).

Definition support_row : PayrollRow.t Q :=
  PayrollRow.mk (Some "E-1"%string) (Some "Support"%string) (PFloat 80000) false
         (PFloat 80000) (PInt 0) (PInt 0) (PInt 0) (PInt 0) (PInt 0)
         (PFloat 80000) (PInt 0) (PFloat 80000).

Definition visitor_row : PayrollRow.t Q :=
  PayrollRow.mk (Some "E-3"%string) (Some "Visitor"%string) (PFloat 1000) true
         (PInt 1182) (PFloat 0) (PFloat 95) (PFloat 71) (PFloat 7)
         (PFloat 4) (PFloat 1006) (PFloat 5) (PFloat 1001).

(** A payroll of one tax-exempt row, before and after validation, and a
    store that holds no other payroll. *)
Definition no_other_payroll (company month year : string)
           (name : option string) : bool := false.

Definition sample_doc : Doc.t Q :=
  Doc.mk (Some "PAY-0001"%string) (Some "School"%string)
         (Some "March"%string) (Some "2025"%string) [exempt_row] [] [].

Definition sample_doc_validated : Doc.t Q :=
  Doc.mk (Some "PAY-0001"%string) (Some "School"%string)
         (Some "March"%string) (Some "2025"%string) [support_row]
         (calculate_summary [support_row]) [calculate_totals [support_row]].


(** * Properties *)

Unset Implicit Arguments.

(** ** Comparisons on rationals *)

Lemma Qltb_iff (a b : Q) : Qltb a b = true <-> a < b.
Proof.
  unfold Qltb. rewrite negb_true_iff. split.
  - intros E. apply Qnot_le_lt. intros L. apply Qle_bool_iff in L. congruence.
  - intros L. destruct (Qle_bool b a) eqn:E; [|reflexivity].
    apply Qle_bool_iff in E. lra.
Qed.

Lemma Qle_bool_false (a b : Q) : Qle_bool a b = false -> b < a.
Proof.
  intros E. apply Qnot_le_lt. intros L. apply Qle_bool_iff in L. congruence.
Qed.

Lemma Qltb_false (a b : Q) : Qltb a b = false -> b <= a.
Proof.
  unfold Qltb. rewrite negb_false_iff. apply Qle_bool_iff.
Qed.

(** Boolean tests in the context become facts [lra] can use. *)
Ltac q_prop :=
  repeat match goal with
  | H : Qle_bool _ _ = true |- _ => apply Qle_bool_iff in H
  | H : Qle_bool _ _ = false |- _ => apply Qle_bool_false in H
  | H : Qltb _ _ = true |- _ => apply Qltb_iff in H
  | H : Qltb _ _ = false |- _ => apply Qltb_false in H
  | H : Qeq_bool _ _ = true |- _ => apply Qeq_bool_iff in H
  | H : Qeq_bool _ _ = false |- _ => apply Qeq_bool_neq in H
  end.

(** Case analysis on the tests of the goal, innermost first. *)
Ltac q_split1 :=
  match goal with
  | |- context [Qeq_bool ?a ?b] =>
      lazymatch a with
      | context [if _ then _ else _] => fail
      | _ => destruct (Qeq_bool a b) eqn:?
      end
  | |- context [Qle_bool ?a ?b] =>
      lazymatch a with
      | context [if _ then _ else _] => fail
      | _ => destruct (Qle_bool a b) eqn:?
      end
  end.

Ltac q_split := repeat (q_split1; cbn [negb]).

Ltac q_unfold :=
  unfold th2, _calc_all, _paye_rwanda, float_or_0;
  cbn [take_home_2 paye rssb_employer rssb_employee maternity_employer
       maternity_employee net_salary cbhi gross_pay
       fle flt fmul fadd fsub fdiv const truthy Q_float negb].

(** ** TaxCalculator and DeductionEngine in exact arithmetic *)

Section ExactEngine.

Local Open Scope Q_scope.


Lemma paye_bracket (g : Q) : _paye_rwanda g == bracket_tax g.
Proof. unfold bracket_tax. q_unfold. q_split; q_prop; lra. Qed.





End ExactEngine.

Section EngineFields.

Context {F : Type} `{PyFloat F}.
Local Open Scope py_scope.


End EngineFields.

Section EngineClaims.

Local Open Scope Q_scope.

(** C4. For every gross [g] and every [apply_tax] flag the dictionary built
    by [_calc_all] satisfies
    [net_salary = gross_pay - (paye + rssb_employer + rssb_employee +
    maternity_employer + maternity_employee)], [cbhi = 0.005 * net_salary]
    and [take_home_2 = net_salary - cbhi], with the four contributions
    equal to 0.08, 0.06, 0.006 and 0.003 of [g], and [paye] the bracket tax
    of [g] when [apply_tax] is set and 0 otherwise. *)
Theorem calc_all_equations (g : Q) (apply_tax : bool) :
  let v := _calc_all g apply_tax in
  net_salary v ==
    gross_pay v - (paye v + rssb_employer v + rssb_employee v
                   + maternity_employer v + maternity_employee v)
  /\ cbhi v == 0.005 * net_salary v
  /\ take_home_2 v == net_salary v - cbhi v
  /\ rssb_employer v == 0.08 * g
  /\ rssb_employee v == 0.06 * g
  /\ maternity_employer v == 0.006 * g
  /\ maternity_employee v == 0.003 * g
  /\ paye v == (if apply_tax then bracket_tax g else 0)
  /\ gross_pay v == g.
Proof.
  cbv zeta.
  assert (P : paye (_calc_all g apply_tax)
              == if apply_tax then bracket_tax g else 0).
  { destruct apply_tax.
    - unfold _calc_all; cbn [paye].
      rewrite paye_bracket. unfold bracket_tax.
      q_unfold. q_split; q_prop; lra.
    - reflexivity. }
  repeat split; try exact P; try reflexivity;
    q_unfold; q_split; q_prop; lra.
Qed.





End EngineClaims.

(** ** The bounded loops *)

Section LoopBounds.

Context {F : Type} `{PyFloat F}.



(** The first loop leaves [hi] doubled as many times as its body ran. *)
Lemma widen_doubles (n : nat) (T : F) (apply_tax : bool) :
  forall hi : F,
    widen n T apply_tax hi
    = Nat.iter (widen_iters n T apply_tax hi)
               (fun h => fmul h (const 2)) hi.
Proof.
  induction n as [|n IH]; intros hi; cbn [widen widen_iters]; [reflexivity|].
  destruct (fle T (th2 apply_tax hi)); [reflexivity|].
  rewrite IH, Nat.iter_succ_r. reflexivity.
Qed.

End LoopBounds.

(** ** GrossSolver in exact arithmetic *)

Section ExactSolver.

Local Open Scope Q_scope.

Variables (T : Q) (apply_tax : bool).



Hypothesis T_pos : 0 < T.





End ExactSolver.

Section SolverClaims.

Local Open Scope Q_scope.

Lemma solver_nonpositive (fuel : nat) (T : Q) (apply_tax : bool)
      (tolerance : Q) (max_iter : Z) :
  T <= 0 ->
  rwanda_gross_for_take_home fuel T apply_tax tolerance max_iter
  = Returned (round_vals (_calc_all 0 apply_tax) 0).
Proof.
  intros L. unfold rwanda_gross_for_take_home.
  cbv zeta. unfold float_or_0 at 1. cbn [truthy fle const Q_float].
  destruct (Qeq_bool T 0) eqn:E0; cbn [negb].
  - reflexivity.
  - destruct (Qle_bool T 0) eqn:E1; q_prop; [reflexivity|lra].
Qed.

(** C7. For a target [T <= 0] and either [apply_tax] flag the solver
    returns at once, whatever the fuel, tolerance and iteration bound, a
    result whose eight amounts are 0 and whose [gross_pay] is the integer
    0; it is [_calc_all(0, apply_tax)] with every amount rounded. *)
Theorem solver_zero_target (fuel : nat) (T : Q) (apply_tax : bool)
        (tolerance : Q) (max_iter : Z) :
  T <= 0 ->
  rwanda_gross_for_take_home fuel T apply_tax tolerance max_iter
  = Returned zero_vals
  /\ zero_vals = round_vals (_calc_all 0 apply_tax) 0.
Proof.
  intros L. rewrite (solver_nonpositive fuel T apply_tax tolerance max_iter L).
  destruct apply_tax; split; vm_compute; reflexivity.
Qed.

Lemma solver_zero_target_witness :
  rwanda_gross_for_take_home 0 0 true default_tolerance default_max_iter
  = Returned zero_vals
  /\ zero_vals = round_vals (_calc_all 0 true) 0.
Proof.
  apply (solver_zero_target 0 0 true default_tolerance default_max_iter).
  lra.
Defined.





End SolverClaims.

(** ** GrossSolver at concrete targets *)

Section Minimality.

Local Open Scope Q_scope.

(** C1 does not hold.  For the target 1000 with PAYE applied and the
    default tolerance and iteration bound the solver returns the gross
    1182, and the gross 1181 already reaches the target: the bisection
    stops at 1181.0302734375, within the tolerance above the target, and
    the ceiling of that is taken.  The same run in exact arithmetic and in
    binary64. *)
Theorem solver_gross_not_minimal :
  (exists v : Vals Q Z,
      rwanda_gross_for_take_home 1 1000 true default_tolerance default_max_iter
      = Returned v
      /\ gross_pay v = 1182%Z
      /\ 1000 <= take_home_2 (_calc_all (inject_Z (gross_pay v - 1)) true))
  /\ (exists v : Vals float Z,
      rwanda_gross_for_take_home 1 1000%float true default_tolerance
                                 default_max_iter
      = Returned v
      /\ gross_pay v = 1182%Z
      /\ (take_home_2 (_calc_all (of_int (gross_pay v - 1)) true)
          >=? 1000%float)%py = true).
Proof.
  split; eexists; (split; [vm_compute; reflexivity|]);
    (split; [reflexivity|]).
  - vm_compute. discriminate.
  - vm_compute. reflexivity.
Qed.

End Minimality.

Section Binary64.

Lemma const_0_binary64 : const (F:=float) 0 = 0%float.
Proof. vm_compute. reflexivity. Qed.

(** The zero-target branch on doubles: a target that compares [<= 0]
    (negative zero and negative infinity included) gives the all-zero
    result. *)
Lemma solver_zero_target_binary64 (fuel : nat) (T : float)
      (apply_tax : bool) (tolerance : float) (max_iter : Z) :
  PrimFloat.leb T 0 = true ->
  rwanda_gross_for_take_home fuel T apply_tax tolerance max_iter
  = Returned (mkVals 0 0 0 0 0 0 0 0 0%Z)%float.
Proof.
  intros L. unfold rwanda_gross_for_take_home. cbv zeta.
  assert (E : (float_or_0 T <=? const 0)%py = true).
  { unfold float_or_0. destruct (truthy T).
    - rewrite const_0_binary64. exact L.
    - vm_compute. reflexivity. }
  rewrite E. destruct apply_tax; vm_compute; reflexivity.
Qed.

(** The scenarios of the specification, run on doubles. *)
Example calc_all_50000_binary64 :
  _calc_all 50000%float true
  = (mkVals 0 4000 3000 300 150 42550 212.75 42337.25 50000)%float.
Proof. vm_compute. reflexivity. Qed.

Example solver_100000_binary64 :
  exists v : Vals float Z,
    rwanda_gross_for_take_home 2 100000%float true default_tolerance
                               default_max_iter = Returned v
    /\ gross_pay v = 129805%Z.
Proof. eexists. split; [vm_compute; reflexivity | reflexivity]. Qed.

End Binary64.

(** ** RowProcessor *)

Section RowClaims.

Context {F : Type} `{PyFloat F}.

Lemma calculate_row_tax_exempt
      (solver : F -> bool -> F -> Z -> outcome (Vals F Z))
      (row : PayrollRow.t F) (t : F) :
  float_of (PayrollRow.take_home row) = Returned t ->
  (t <=? const 0)%py = false ->
  PayrollRow.apply_tax row = false ->
  calculate_row_with solver row
  = Returned (PayrollRow.mk (PayrollRow.employee row) (PayrollRow.employee_type row)
                     (PayrollRow.take_home row) (PayrollRow.apply_tax row)
                     (PFloat t) (PInt 0) (PInt 0) (PInt 0) (PInt 0)
                     (PInt 0) (PFloat t) (PInt 0) (PFloat t)).
Proof.
  intros Ht Hpos Htax. unfold calculate_row_with.
  rewrite Ht. cbn [bind]. rewrite Hpos, Htax. reflexivity.
Qed.

End RowClaims.

Section RowClaimsExact.

Local Open Scope Q_scope.

(** C6. A row whose target take-home is positive and whose [apply_tax]
    flag is off gets [gross_pay], [net_salary] and [take_home_2] equal to
    the target and [paye], [rssb_employer], [rssb_employee],
    [maternity_employer], [maternity_employee] and [cbhi] equal to 0; the
    result is the same whatever the solver does, and needs no fuel, so
    nothing is computed from the deduction formulas. *)
Theorem row_tax_exempt (row : PayrollRow.t Q) (t : Q) :
  float_of (PayrollRow.take_home row) = Returned t ->
  0 < t ->
  PayrollRow.apply_tax row = false ->
  let row' := PayrollRow.mk (PayrollRow.employee row) (PayrollRow.employee_type row)
                     (PayrollRow.take_home row) (PayrollRow.apply_tax row)
                     (PFloat t) (PInt 0) (PInt 0) (PInt 0) (PInt 0)
                     (PInt 0) (PFloat t) (PInt 0) (PFloat t) in
  (forall solver, calculate_row_with solver row = Returned row')
  /\ (forall fuel, calculate_row fuel row = Returned row')
  /\ PayrollRow.gross_pay row' = PFloat t
  /\ PayrollRow.net_salary row' = PFloat t
  /\ PayrollRow.take_home_2 row' = PFloat t
  /\ PayrollRow.paye row' = PInt 0
  /\ PayrollRow.rssb_employer row' = PInt 0
  /\ PayrollRow.rssb_employee row' = PInt 0
  /\ PayrollRow.maternity_employer row' = PInt 0
  /\ PayrollRow.maternity_employee row' = PInt 0
  /\ PayrollRow.cbhi row' = PInt 0.
Proof.
  intros Ht Hpos Htax. cbv zeta.
  assert (N : (t <=? const 0)%py = false).
  { cbn [fle const Q_float]. destruct (Qle_bool t 0) eqn:E; q_prop; [lra|reflexivity]. }
  split; [|split].
  - intros solver. exact (calculate_row_tax_exempt solver row t Ht N Htax).
  - intros fuel. exact (calculate_row_tax_exempt _ row t Ht N Htax).
  - cbn. repeat split.
Qed.

Lemma row_tax_exempt_witness :
  let row' := PayrollRow.mk (Some "E-1"%string) (Some "Support"%string)
                     (PFloat 80000) false
                     (PFloat 80000) (PInt 0) (PInt 0) (PInt 0) (PInt 0)
                     (PInt 0) (PFloat 80000) (PInt 0) (PFloat 80000) in
  (forall solver, calculate_row_with solver exempt_row = Returned row')
  /\ (forall fuel, calculate_row fuel exempt_row = Returned row')
  /\ PayrollRow.gross_pay row' = PFloat 80000
  /\ PayrollRow.net_salary row' = PFloat 80000
  /\ PayrollRow.take_home_2 row' = PFloat 80000
  /\ PayrollRow.paye row' = PInt 0
  /\ PayrollRow.rssb_employer row' = PInt 0
  /\ PayrollRow.rssb_employee row' = PInt 0
  /\ PayrollRow.maternity_employer row' = PInt 0
  /\ PayrollRow.maternity_employee row' = PInt 0
  /\ PayrollRow.cbhi row' = PInt 0.
Proof.
  apply (row_tax_exempt exempt_row 80000); reflexivity.
Defined.

End RowClaimsExact.

(** ** Aggregator *)

Section SummaryLemmas.

Context {F : Type} `{PyFloat F}.

Lemma aggregate_row_three (a b c : Summary.t F) (row : PayrollRow.t F) :
  aggregate_row [("Academic"%string, a); ("Administrative"%string, b);
                 ("Support"%string, c)] row
  = [("Academic"%string, cat_step "Academic" a row);
     ("Administrative"%string, cat_step "Administrative" b row);
     ("Support"%string, cat_step "Support" c row)].
Proof.
  unfold aggregate_row, cat_step, in_category.
  destruct (PayrollRow.employee_type row) as [t|]; [|reflexivity].
  cbn [update].
  destruct (String.eqb_spec "Academic" t) as [<-|N1]; [reflexivity|].
  destruct (String.eqb_spec "Administrative" t) as [<-|N2]; [reflexivity|].
  destruct (String.eqb_spec "Support" t) as [<-|N3]; reflexivity.
Qed.

Lemma fold_aggregate_three (rows : list (PayrollRow.t F)) :
  forall a b c : Summary.t F,
    fold_left aggregate_row rows
              [("Academic"%string, a); ("Administrative"%string, b);
               ("Support"%string, c)]
    = [("Academic"%string, fold_left (cat_step "Academic") rows a);
       ("Administrative"%string, fold_left (cat_step "Administrative") rows b);
       ("Support"%string, fold_left (cat_step "Support") rows c)].
Proof.
  induction rows as [|row rows IH]; intros a b c; [reflexivity|].
  cbn [fold_left]. rewrite aggregate_row_three. apply IH.
Qed.

Lemma summary_by_category (rows : list (PayrollRow.t F)) :
  fold_left aggregate_row rows init_summary
  = map (fun t => (t, category_data t rows)) types.
Proof. apply fold_aggregate_three. Qed.

End SummaryLemmas.

Section SummaryClaims.

Context {F : Type} `{PyFloat F}.

Lemma cat_fold_type (t : string) (rows : list (PayrollRow.t F)) :
  forall d, Summary.employee_type (fold_left (cat_step t) rows d)
            = Summary.employee_type d.
Proof.
  induction rows as [|row rows IH]; intros d; [reflexivity|].
  cbn [fold_left]. rewrite IH. unfold cat_step.
  destruct (in_category t row); reflexivity.
Qed.

Lemma total_fold_type (ds : list (Summary.t F)) :
  forall tot, Summary.employee_type (fold_left add_to_total ds tot)
              = Summary.employee_type tot.
Proof.
  induction ds as [|d ds IH]; intros tot; [reflexivity|].
  cbn [fold_left]. rewrite IH. reflexivity.
Qed.

Lemma not_in_category (t : string) (row : PayrollRow.t F) :
  PayrollRow.employee_type row <> Some t -> in_category t row = false.
Proof.
  unfold in_category. destruct (PayrollRow.employee_type row) as [t'|]; [|reflexivity].
  intros N. destruct (String.eqb_spec t t') as [->|]; congruence.
Qed.

Lemma category_data_empty (t : string) (rows : list (PayrollRow.t F)) :
  (forall row, In row rows -> PayrollRow.employee_type row <> Some t) ->
  category_data t rows = empty_summary t.
Proof.
  unfold category_data. generalize (empty_summary (F:=F) t).
  induction rows as [|row rows IH]; intros d Hn; [reflexivity|].
  cbn [fold_left]. unfold cat_step at 2.
  rewrite (not_in_category t row (Hn row (or_introl eq_refl))).
  apply IH. intros r Hr. apply Hn. right. exact Hr.
Qed.


Lemma calculate_summary_unfold (rows : list (PayrollRow.t F)) :
  calculate_summary rows
  = let a := set_net_minus_advance (category_data "Academic" rows) in
    let b := set_net_minus_advance (category_data "Administrative" rows) in
    let c := set_net_minus_advance (category_data "Support" rows) in
    [a; b; c;
     set_net_minus_advance
       (fold_left add_to_total [a; b; c] (empty_summary "Total"))].
Proof.
  unfold calculate_summary. rewrite summary_by_category. reflexivity.
Qed.

(** C9. For every list of rows, the empty one included,
    [calculate_summary] appends exactly four records, for Academic,
    Administrative, Support and Total in this order; a category that no
    row belongs to is still there, with [employee_count] and the four
    amounts equal to 0. *)
Theorem summary_four_records (rows : list (PayrollRow.t F)) :
  map (fun d => Summary.employee_type d) (calculate_summary rows)
  = ["Academic"; "Administrative"; "Support"; "Total"]%string
  /\ (forall (i : nat) (t : string),
         nth_error types i = Some t ->
         (forall row, In row rows -> PayrollRow.employee_type row <> Some t) ->
         nth_error (calculate_summary rows) i
         = Some (Summary.mk t 0 (PInt 0) (PInt 0) (PInt 0) (PInt 0))).
Proof.
  rewrite calculate_summary_unfold. cbv zeta. split.
  - cbn [map set_net_minus_advance Summary.employee_type].
    unfold category_data. rewrite !cat_fold_type. reflexivity.
  - intros i t Hi Hn.
    destruct i as [|[|[|i]]]; cbn in Hi;
      [| | |destruct i; discriminate];
      injection Hi as <-; cbn [nth_error];
      rewrite (category_data_empty _ rows Hn); reflexivity.
Qed.

End SummaryClaims.

Lemma summary_four_records_witness :
  map (fun d => Summary.employee_type d)
      (calculate_summary [academic_row; visitor_row])
  = ["Academic"; "Administrative"; "Support"; "Total"]%string
  /\ nth_error (calculate_summary [academic_row; visitor_row]) 1
     = Some (Summary.mk "Administrative" 0 (PInt 0) (PInt 0) (PInt 0) (PInt 0)).
Proof.
  destruct (summary_four_records [academic_row; visitor_row]) as [A B].
  split; [exact A|].
  apply (B 1%nat "Administrative"%string); [reflexivity|].
  intros row [<-|[<-|[]]]; discriminate.
Defined.

Section SummarySkip.

Context {F : Type} `{PyFloat F}.


End SummarySkip.

Section TotalsExact.

Local Open Scope Q_scope.








End TotalsExact.

(** * Further properties *)

(** ** TaxCalculator and DeductionEngine *)

Section EngineBounds.

Local Open Scope Q_scope.





End EngineBounds.

(** ** GrossSolver: what the search loops establish *)

Section SearchLoops.

Local Open Scope Q_scope.

Variables (T : Q) (apply_tax : bool).





Hypothesis T_pos : 0 < T.





End SearchLoops.

(** ** GrossSolver: what the result is *)

Section SolverResult.

Local Open Scope Q_scope.






End SolverResult.

Section SolverExtras.

Local Open Scope Q_scope.










End SolverExtras.

(** ** RowProcessor: the other two branches, and running it twice *)

Section RowFrame.

Context {F : Type} `{PyFloat F}.

(** What [calculate_row] reads of a row is what it leaves untouched. *)
Lemma calculate_row_with_frame
      (solver : F -> bool -> F -> Z -> outcome (Vals F Z))
      (row row' : PayrollRow.t F) :
  calculate_row_with solver row = Returned row' ->
  PayrollRow.employee row' = PayrollRow.employee row
  /\ PayrollRow.employee_type row' = PayrollRow.employee_type row
  /\ PayrollRow.take_home row' = PayrollRow.take_home row
  /\ PayrollRow.apply_tax row' = PayrollRow.apply_tax row.
Proof.
  unfold calculate_row_with.
  destruct (float_of (PayrollRow.take_home row)) as [t| |]; cbn [bind];
    try discriminate.
  destruct (fle t (const 0)).
  - intros E. injection E as <-. repeat split.
  - destruct (negb (PayrollRow.apply_tax row)).
    + intros E. injection E as <-. repeat split.
    + destruct (solver t true (const 1) 60%Z) as [v| |]; cbn [bind];
        try discriminate.
      intros E. injection E as <-. repeat split.
Qed.

Lemma calculate_row_with_again
      (solver : F -> bool -> F -> Z -> outcome (Vals F Z))
      (row row' : PayrollRow.t F) :
  calculate_row_with solver row = Returned row' ->
  calculate_row_with solver row' = Returned row'.
Proof.
  intros E. pose proof E as E0. revert E.
  destruct (calculate_row_with_frame solver row row' E0) as (A & B & C & D).
  unfold calculate_row_with. rewrite A, B, C, D.
  destruct (float_of (PayrollRow.take_home row)) as [t| |]; cbn [bind];
    try discriminate.
  destruct (fle t (const 0)).
  - intros E. injection E as <-. reflexivity.
  - destruct (negb (PayrollRow.apply_tax row)).
    + intros E. injection E as <-. reflexivity.
    + destruct (solver t true (const 1) 60%Z) as [v| |]; cbn [bind];
        try discriminate.
      intros E. injection E as <-. reflexivity.
Qed.

(** X7. A calculated row keeps its [employee], [employee_type], [take_home]
    and [apply_tax], and calculating it again changes nothing. *)
Theorem calculate_row_idempotent (fuel : nat) (row row' : PayrollRow.t F) :
  calculate_row fuel row = Returned row' ->
  PayrollRow.employee row' = PayrollRow.employee row
  /\ PayrollRow.employee_type row' = PayrollRow.employee_type row
  /\ PayrollRow.take_home row' = PayrollRow.take_home row
  /\ PayrollRow.apply_tax row' = PayrollRow.apply_tax row
  /\ calculate_row fuel row' = Returned row'.
Proof.
  intros E. unfold calculate_row in *.
  destruct (calculate_row_with_frame _ row row' E) as (A & B & C & D).
  repeat split; try assumption.
  exact (calculate_row_with_again _ row row' E).
Qed.

End RowFrame.

Lemma calculate_row_idempotent_witness :
  PayrollRow.employee support_row = PayrollRow.employee exempt_row
  /\ PayrollRow.employee_type support_row = PayrollRow.employee_type exempt_row
  /\ PayrollRow.take_home support_row = PayrollRow.take_home exempt_row
  /\ PayrollRow.apply_tax support_row = PayrollRow.apply_tax exempt_row
  /\ calculate_row 0 support_row = Returned support_row.
Proof.
  apply (calculate_row_idempotent 0 exempt_row support_row). reflexivity.
Defined.

Section RowBranches.

Local Open Scope Q_scope.

(** X8. A row with no take-home, or one that is zero or negative, gets 0 in
    all nine computed fields, whatever its [apply_tax] flag and whatever
    the solver would do. *)
Theorem row_no_target (row : PayrollRow.t Q) (t : Q) :
  float_of (PayrollRow.take_home row) = Returned t ->
  t <= 0 ->
  let row' := PayrollRow.mk (PayrollRow.employee row) (PayrollRow.employee_type row)
                     (PayrollRow.take_home row) (PayrollRow.apply_tax row)
                     (PInt 0) (PInt 0) (PInt 0) (PInt 0) (PInt 0)
                     (PInt 0) (PInt 0) (PInt 0) (PInt 0) in
  (forall solver, calculate_row_with solver row = Returned row')
  /\ (forall fuel, calculate_row fuel row = Returned row').
Proof.
  intros Ht Hle. cbv zeta.
  assert (N : fle t (const 0) = true).
  { cbn [fle const Q_float]. apply Qle_bool_iff. exact Hle. }
  assert (A : forall solver,
             calculate_row_with solver row
             = Returned (PayrollRow.mk (PayrollRow.employee row) (PayrollRow.employee_type row)
                                (PayrollRow.take_home row) (PayrollRow.apply_tax row)
                                (PInt 0) (PInt 0) (PInt 0) (PInt 0) (PInt 0)
                                (PInt 0) (PInt 0) (PInt 0) (PInt 0))).
  { intros solver. unfold calculate_row_with.
    rewrite Ht. cbn [bind]. rewrite N. reflexivity. }
  split; [exact A|]. intros fuel. apply A.
Qed.

Lemma row_no_target_witness :
  let row := PayrollRow.mk (Some "E-4"%string) (Some "Academic"%string) PNone true
                    (PFloat 5) (PFloat 5) (PFloat 5) (PFloat 5) (PFloat 5)
                    (PFloat 5) (PFloat 5) (PFloat 5) (PFloat 5) in
  let row' := PayrollRow.mk (Some "E-4"%string) (Some "Academic"%string) PNone true
                     (PInt 0) (PInt 0) (PInt 0) (PInt 0) (PInt 0)
                     (PInt 0) (PInt 0) (PInt 0) (PInt 0) in
  (forall solver, calculate_row_with solver row = Returned row')
  /\ (forall fuel, calculate_row fuel row = Returned row').
Proof.
  cbv zeta.
  apply (row_no_target
           (PayrollRow.mk (Some "E-4"%string) (Some "Academic"%string) PNone true
                   (PFloat 5) (PFloat 5) (PFloat 5) (PFloat 5) (PFloat 5)
                   (PFloat 5) (PFloat 5) (PFloat 5) (PFloat 5)) 0).
  - reflexivity.
  - lra.
Defined.




End RowBranches.

(** ** Duplicate employees *)

Section Duplicates.

Context {F : Type} `{PyFloat F}.

Lemma seen_spec (e : string) (seen : list string) :
  existsb (String.eqb e) seen = true <-> In e seen.
Proof.
  rewrite existsb_exists. split.
  - intros [x [I E]]. apply String.eqb_eq in E. subst x. exact I.
  - intros I. exists e. split; [exact I|apply String.eqb_refl].
Qed.

Lemma duplicates_from_passed (rows : list (PayrollRow.t F)) :
  forall seen : list string,
    duplicates_from seen rows = Passed
    <-> NoDup (employees rows)
        /\ (forall e, In e (employees rows) -> ~ In e seen).
Proof.
  induction rows as [|row rows IH]; intros seen; cbn [duplicates_from employees].
  - split; [intros _; split; [constructor|intros e []]|reflexivity].
  - destruct (PayrollRow.employee row) as [e|]; [|apply IH].
    destruct (str_truthy (Some e)); [|apply IH].
    destruct (existsb (String.eqb e) seen) eqn:S.
    + apply seen_spec in S. split; [discriminate|].
      intros [_ N]. exfalso. apply (N e); [left; reflexivity|exact S].
    + assert (S' : ~ In e seen).
      { intros I. apply seen_spec in I. congruence. }
      rewrite IH. split.
      * intros [D N]. split.
        -- constructor; [|exact D]. intros I. apply (N e I). left. reflexivity.
        -- intros x [<-|I]; [exact S'|].
           intros J. apply (N x I). right. exact J.
      * intros [D N]. inversion D as [|? ? D1 D2]; subst. split; [exact D2|].
        intros x I [<-|J]; [exact (D1 I)|].
        apply (N x); [right; exact I|exact J].
Qed.

(** X10. The check passes exactly when the names of the rows that have one are
    pairwise distinct; rows without a name, or with an empty one, never
    count. *)
Theorem validate_duplicates_passes (rows : list (PayrollRow.t F)) :
  validate_duplicates rows = Passed <-> NoDup (employees rows).
Proof.
  unfold validate_duplicates. rewrite duplicates_from_passed.
  split; [intros [D _]; exact D|intros D; split; [exact D|intros e _ []]].
Qed.

Lemma duplicates_from_thrown (rows : list (PayrollRow.t F)) :
  forall (seen : list string) (err : validation_error),
    duplicates_from seen rows = Thrown err ->
    exists (e : string) (before after : list (PayrollRow.t F)) (row : PayrollRow.t F),
      err = EmployeeTwice e
      /\ rows = before ++ row :: after
      /\ PayrollRow.employee row = Some e
      /\ e <> ""%string
      /\ (In e seen \/ In e (employees before))
      /\ duplicates_from seen before = Passed.
Proof.
  induction rows as [|row rows IH]; intros seen err; cbn [duplicates_from];
    [discriminate|].
  assert (Skip : forall s : list string,
             s = seen ->
             (PayrollRow.employee row = None
              \/ exists e, PayrollRow.employee row = Some e
                           /\ str_truthy (Some e) = false) ->
             duplicates_from s rows = Thrown err ->
             exists (e : string) (before after : list (PayrollRow.t F))
                    (row0 : PayrollRow.t F),
               err = EmployeeTwice e
               /\ row :: rows = before ++ row0 :: after
               /\ PayrollRow.employee row0 = Some e
               /\ e <> ""%string
               /\ (In e seen \/ In e (employees before))
               /\ duplicates_from seen before = Passed).
  { intros s -> Hno T.
    destruct (IH _ _ T) as (e & b & a & r & E1 & E2 & E3 & E4 & E5 & E6).
    exists e, (row :: b), a, r. repeat split; try assumption.
    - rewrite E2. reflexivity.
    - cbn [employees].
      destruct Hno as [N|[x [N1 N2]]]; [rewrite N; exact E5|].
      rewrite N1, N2. exact E5.
    - cbn [duplicates_from].
      destruct Hno as [N|[x [N1 N2]]]; [rewrite N; exact E6|].
      rewrite N1, N2. exact E6. }
  destruct (PayrollRow.employee row) as [e|] eqn:Em;
    [|apply (Skip seen eq_refl); left; reflexivity].
  destruct (str_truthy (Some e)) eqn:Tr;
    [|apply (Skip seen eq_refl); right; exists e; split; [reflexivity|exact Tr]].
  destruct (existsb (String.eqb e) seen) eqn:S.
  - intros T. injection T as <-. apply seen_spec in S.
    exists e, [], rows, row. repeat split; try assumption; try reflexivity.
    + intros ->. discriminate.
    + left. exact S.
  - intros T.
    destruct (IH _ _ T) as (x & b & a & r & E1 & E2 & E3 & E4 & E5 & E6).
    exists x, (row :: b), a, r. repeat split; try assumption.
    + rewrite E2. reflexivity.
    + cbn [employees]. rewrite Em, Tr.
      destruct E5 as [[<-|I]|I]; [right; left; reflexivity|left; exact I|].
      right. right. exact I.
    + cbn [duplicates_from]. rewrite Em, Tr, S. exact E6.
Qed.

(** X11. When the check throws, it names the employee of the first row whose
    non-empty name an earlier row already carries; the rows before it
    pass the check. *)
Theorem validate_duplicates_throws (rows : list (PayrollRow.t F))
        (err : validation_error) :
  validate_duplicates rows = Thrown err ->
  exists (e : string) (before after : list (PayrollRow.t F)) (row : PayrollRow.t F),
    err = EmployeeTwice e
    /\ rows = before ++ row :: after
    /\ PayrollRow.employee row = Some e
    /\ e <> ""%string
    /\ In e (employees before)
    /\ validate_duplicates before = Passed.
Proof.
  intros T. unfold validate_duplicates in *.
  destruct (duplicates_from_thrown rows [] err T)
    as (e & b & a & r & E1 & E2 & E3 & E4 & [[]|E5] & E6).
  exists e, b, a, r. repeat split; assumption.
Qed.

End Duplicates.

Lemma validate_duplicates_passes_witness :
  validate_duplicates [academic_row; support_row; visitor_row] = Passed
  <-> NoDup (employees [academic_row; support_row; visitor_row]).
Proof.
  exact (validate_duplicates_passes [academic_row; support_row; visitor_row]).
Defined.

Lemma validate_duplicates_throws_witness :
  exists (e : string) (before after : list (PayrollRow.t Q)) (row : PayrollRow.t Q),
    EmployeeTwice "E-1" = EmployeeTwice e
    /\ [support_row; academic_row; exempt_row; visitor_row]
       = before ++ row :: after
    /\ PayrollRow.employee row = Some e
    /\ e <> ""%string
    /\ In e (employees before)
    /\ validate_duplicates before = Passed.
Proof.
  apply (validate_duplicates_throws
           [support_row; academic_row; exempt_row; visitor_row]
           (EmployeeTwice "E-1")).
  reflexivity.
Defined.

(** ** The validation hook *)

Section ValidateFrame.

Context {F : Type} `{PyFloat F}.

Lemma calculate_rows_again (fuel : nat) (rows : list (PayrollRow.t F)) :
  forall rows' : list (PayrollRow.t F),
    calculate_rows fuel rows = Returned rows' ->
    calculate_rows fuel rows' = Returned rows'
    /\ employees rows' = employees rows
    /\ List.length rows' = List.length rows.
Proof.
  induction rows as [|row rows IH]; intros rows'; cbn [calculate_rows].
  - intros E. injection E as <-. repeat split.
  - destruct (calculate_row fuel row) as [r| |] eqn:R; cbn [bind];
      try discriminate.
    destruct (calculate_rows fuel rows) as [rs| |] eqn:Rs; cbn [bind];
      try discriminate.
    intros E. injection E as <-.
    destruct (IH rs eq_refl) as (A & B & C).
    destruct (calculate_row_with_frame _ row r R) as (Em & _).
    repeat split.
    + cbn [calculate_rows].
      rewrite (calculate_row_with_again _ row r R : calculate_row fuel r = _).
      cbn [bind]. rewrite A. reflexivity.
    + cbn [employees]. rewrite Em, B. reflexivity.
    + cbn [List.length]. rewrite C. reflexivity.
Qed.

Variable db_exists : string -> string -> string -> option string -> bool.

(** X12. A document that passes validation carries tables computed from its
    calculated rows, as many rows as before with pairwise distinct
    employees, and validating it again, the stored payrolls being the
    same, leaves it as it is. *)
Theorem validate_idempotent (fuel : nat) (doc doc' : Doc.t F) :
  validate db_exists fuel doc = Returned (inr doc') ->
  Doc.summary_by_type doc' = calculate_summary (Doc.payroll_detail doc')
  /\ Doc.monthly_payroll_totals doc'
     = [calculate_totals (Doc.payroll_detail doc')]
  /\ List.length (Doc.payroll_detail doc') = List.length (Doc.payroll_detail doc)
  /\ NoDup (employees (Doc.payroll_detail doc'))
  /\ validate db_exists fuel doc' = Returned (inr doc').
Proof.
  unfold validate.
  destruct (check_unique_company_month_year db_exists doc) eqn:U;
    [|discriminate].
  destruct (calculate_rows fuel (Doc.payroll_detail doc)) as [rows| |] eqn:R;
    cbn [bind]; try discriminate.
  destruct (validate_duplicates rows) eqn:D; [|discriminate].
  intros E. injection E as <-.
  cbn [Doc.summary_by_type Doc.monthly_payroll_totals Doc.payroll_detail].
  destruct (calculate_rows_again fuel _ rows R) as (A & B & C).
  repeat split; try assumption.
  - apply (duplicates_from_passed rows [] : _ <-> _). exact D.
  - unfold check_unique_company_month_year in *.
    cbn [Doc.company Doc.month Doc.year Doc.name Doc.payroll_detail].
    rewrite U, A. cbn [bind]. rewrite D. reflexivity.
Qed.

End ValidateFrame.

Lemma validate_idempotent_witness :
  Doc.summary_by_type sample_doc_validated
  = calculate_summary (Doc.payroll_detail sample_doc_validated)
  /\ Doc.monthly_payroll_totals sample_doc_validated
     = [calculate_totals (Doc.payroll_detail sample_doc_validated)]
  /\ List.length (Doc.payroll_detail sample_doc_validated)
     = List.length (Doc.payroll_detail sample_doc)
  /\ NoDup (employees (Doc.payroll_detail sample_doc_validated))
  /\ validate no_other_payroll 0 sample_doc_validated
     = Returned (inr sample_doc_validated).
Proof.
  apply (validate_idempotent no_other_payroll 0 sample_doc
                             sample_doc_validated).
  reflexivity.
Defined.

Section ValidateExact.

Local Open Scope Q_scope.




End ValidateExact.

(** ** Aggregator: head counts *)

Section SummaryCounts.

Context {F : Type} `{PyFloat F}.

Lemma cat_fold_count (t : string) (rows : list (PayrollRow.t F)) :
  forall d,
    Summary.employee_count (fold_left (cat_step t) rows d)
    = (Summary.employee_count d
       + Z.of_nat (List.length (category_rows t rows)))%Z.
Proof.
  unfold category_rows.
  induction rows as [|row rows IH]; intros d; cbn [fold_left filter List.length].
  - lia.
  - rewrite IH. unfold cat_step.
    destruct (in_category t row);
      cbn [Summary.employee_count add_row List.length]; lia.
Qed.

Lemma in_category_type (t : string) (row : PayrollRow.t F) :
  in_category t row = true -> PayrollRow.employee_type row = Some t.
Proof.
  unfold in_category. destruct (PayrollRow.employee_type row) as [t'|];
    [|discriminate].
  intros E. apply String.eqb_eq in E. congruence.
Qed.

Lemma categories_disjoint (rows : list (PayrollRow.t F)) :
  (List.length (category_rows "Academic" rows)
   + List.length (category_rows "Administrative" rows)
   + List.length (category_rows "Support" rows)
   <= List.length rows)%nat.
Proof.
  unfold category_rows.
  induction rows as [|row rows IH]; cbn [filter List.length]; [lia|].
  destruct (in_category "Academic" row) eqn:A;
    destruct (in_category "Administrative" row) eqn:B;
    destruct (in_category "Support" row) eqn:C;
    cbn [List.length]; try lia;
    repeat match goal with
           | X : in_category _ row = true |- _ =>
               apply in_category_type in X
           end;
    congruence.
Qed.

(** X14. The [employee_count] of each category is the number of rows of that
    employee type, that of the Total record is their sum, and the sum is
    at most the number of rows. *)
Theorem summary_counts (rows : list (PayrollRow.t F)) :
  let n := fun t => Z.of_nat (List.length (category_rows t rows)) in
  map (fun d => Summary.employee_count d) (calculate_summary rows)
  = [n "Academic"; n "Administrative"; n "Support";
     n "Academic" + n "Administrative" + n "Support"]%string%Z
  /\ (n "Academic" + n "Administrative" + n "Support"
      <= Z.of_nat (List.length rows))%string%Z.
Proof.
  cbv zeta. split.
  - rewrite calculate_summary_unfold. cbv zeta.
    cbn [map fold_left set_net_minus_advance add_to_total
         Summary.employee_count empty_summary].
    unfold category_data. rewrite !cat_fold_count.
    cbn [Summary.employee_count empty_summary].
    repeat f_equal; lia.
  - pose proof (categories_disjoint rows). lia.
Qed.

End SummaryCounts.

(** ** Aggregator: the amounts as sums over the rows *)

Section AggregateAmounts.

Local Open Scope Q_scope.







End AggregateAmounts.

(** ** Aggregator: totals of the month, and the order of the rows *)

Section TotalsAmounts.

Local Open Scope Q_scope.










End TotalsAmounts.

(** ** The zero-target branch on doubles *)

Lemma solver_zero_target_binary64_witness :
  rwanda_gross_for_take_home 0 (-0)%float true default_tolerance
                             default_max_iter
  = Returned (mkVals 0 0 0 0 0 0 0 0 0%Z)%float
  /\ rwanda_gross_for_take_home 0 neg_infinity false default_tolerance
                                default_max_iter
     = Returned (mkVals 0 0 0 0 0 0 0 0 0%Z)%float.
Proof.
  split.
  - apply (solver_zero_target_binary64 0 (-0)%float true). reflexivity.
  - apply (solver_zero_target_binary64 0 neg_infinity false). reflexivity.
Defined.
